(** * arbcompare: the ARB comparison algorithm of [app.py]

    A shallow embedding of the helper functions and of [compare_arb_files],
    followed by the properties of the comparison report.

    Character model.  A Python [str] is a sequence of code points; here it is
    a [string] whose characters are the code points U+0000..U+00FF.  The
    character classes used by [str.lower], [str.strip] and the regular
    expression class [\w] are the ones CPython uses on that range. *)

From Stdlib Require Import Ascii NArith ZArith.
From stdpp Require Import gmap strings list.

Local Open Scope N_scope.

(** ** Python string primitives *)

Module Py.

Definition newline : ascii := "010"%char.

(** Code point of a character. *)
Definition ord (c : ascii) : N := N_of_ascii c.

Definition in_range (lo hi n : N) : bool := (lo <=? n) && (n <=? hi).

(** [str.lower] on one character: A-Z, and the Latin-1 capitals
    U+00C0..U+00DE except the multiplication sign U+00D7. *)
Definition lower_char (c : ascii) : ascii :=
  let n := ord c in
  if in_range 65 90 n || (in_range 192 222 n && negb (n =? 215))
  then ascii_of_N (n + 32)
  else c.

(** [s.lower()] *)
Fixpoint lower (s : string) : string :=
  match s with
  | "" => ""
  | String c s' => String (lower_char c) (lower s')
  end.

(** [c.isspace()]: the characters removed by [str.strip()]. *)
Definition isspace (c : ascii) : bool :=
  let n := ord c in
  in_range 9 13 n || in_range 28 32 n || (n =? 133) || (n =? 160).

(** The class [\w] of [re] on [str] patterns: alphanumeric or underscore. *)
Definition isword (c : ascii) : bool :=
  let n := ord c in
  in_range 48 57 n || in_range 65 90 n || (n =? 95) || in_range 97 122 n
  || (n =? 170) || in_range 178 179 n || (n =? 181) || in_range 185 186 n
  || in_range 188 190 n || in_range 192 214 n || in_range 216 246 n
  || in_range 248 255 n.

(** [s.startswith(p)] *)
Fixpoint startswith (p s : string) : bool :=
  match p, s with
  | "", _ => true
  | String a p', String b s' => bool_decide (a = b) && startswith p' s'
  | String _ _, "" => false
  end.

(** [s.endswith(p)]: [s] is [p], or the tail of [s] ends with [p]. *)
Fixpoint endswith (p s : string) : bool :=
  bool_decide (s = p)
  || match s with
     | "" => false
     | String _ s' => endswith p s'
     end.

(** [sub in s] for strings: [sub] starts at some position of [s]. *)
Fixpoint contains (sub s : string) : bool :=
  startswith sub s
  || match s with
     | "" => false
     | String _ s' => contains sub s'
     end.

(** [s.count(c)] for a one-character string [c]. *)
Fixpoint count (c : ascii) (s : string) : nat :=
  match s with
  | "" => O
  | String a s' => (if bool_decide (a = c) then 1 else 0)%nat + count c s'
  end.

(** [s.lstrip()] *)
Fixpoint lstrip (s : string) : string :=
  match s with
  | "" => ""
  | String c s' => if isspace c then lstrip s' else s
  end.

(** [s.rstrip()] *)
Fixpoint rstrip (s : string) : string :=
  match s with
  | "" => ""
  | String c s' =>
    match rstrip s' with
    | "" => if isspace c then "" else String c ""
    | r => String c r
    end
  end.

(** [s.strip()] *)
Definition strip (s : string) : string := rstrip (lstrip s).

End Py.

(** ** 1. Mappings and helper functions *)

(** [language_map]: a dict literal, iterated in insertion order. *)
Definition language_map : list (string * string) :=
  [ ("dutch", "nl");
    ("german", "de");
    ("italian", "it");
    ("japanese", "ja");
    ("korean", "ko");
    ("polish", "pl");
    ("portuguese", "pt");
    ("russian", "ru");
    ("spanish", "es");
    ("turkish", "tr");
    ("french", "fr");
    ("fr", "fr");
    ("english", "en") ].

(** The [for lang, code in language_map.items()] loop of
    [detect_language_code], over the lower-cased name. *)
Fixpoint detect_loop (items : list (string * string)) (lower_name : string)
  : option string :=
  match items with
  | [] => None
  | (lang, code) :: rest =>
    if Py.contains lang lower_name then Some code
    else detect_loop rest lower_name
  end.

Definition detect_language_code (file_name : string) : option string :=
  let lower_name := Py.lower file_name in
  detect_loop language_map lower_name.

(** *** extract_params: [set(re.findall(r"{(\w+)}", text))] *)

(** The longest run of [\w] characters at the start of [s], and what follows. *)
Fixpoint word_run (s : string) : string * string :=
  match s with
  | "" => ("", "")
  | String c s' =>
    if Py.isword c
    then let '(w, r) := word_run s' in (String c w, r)
    else ("", s)
  end.

(** The pattern [{(\w+)}] anchored at the start of [s]: the captured group.
    [\w+] is greedy and [\w] excludes both braces, so the group is the whole
    run of word characters after the opening brace. *)
Definition match_placeholder (s : string) : option string :=
  match s with
  | String "{"%char s' =>
    match word_run s' with
    | (String c w, String "}"%char _) => Some (String c w)
    | _ => None
    end
  | _ => None
  end.

(** [re.findall]: scan from left to right; after a match the scan resumes
    behind it ([skip] counts the characters of the match still to pass),
    after a failure at the next character. *)
Fixpoint findall_go (skip : nat) (s : string) : list string :=
  match s with
  | "" => []
  | String _ s' =>
    match skip with
    | S n => findall_go n s'
    | O =>
      match match_placeholder s with
      | Some w => w :: findall_go (String.length w + 1) s'
      | None => findall_go 0 s'
      end
    end
  end.

Definition findall (text : string) : list string := findall_go 0 text.

Definition extract_params (text : string) : gset string :=
  let matches := findall text in
  list_to_set matches.

(** *** check_text_issues *)

Definition check_text_issues (source target lang_code : string) : list string :=
  let issues : list string := [] in
  (* Leading/trailing space checks *)
  let issues :=
    if Py.startswith " " source && negb (Py.startswith " " target)
    then issues ++ ["missing_start_space"] else issues in
  let issues :=
    if Py.endswith " " source && negb (Py.endswith " " target)
    then issues ++ ["missing_end_space"] else issues in
  (* Leading/trailing newline checks *)
  let issues :=
    if Py.startswith (String Py.newline "") source
       && negb (Py.startswith (String Py.newline "") target)
    then issues ++ ["missing_start_line_break"] else issues in
  let issues :=
    if Py.endswith (String Py.newline "") source
       && negb (Py.endswith (String Py.newline "") target)
    then issues ++ ["missing_end_line_break"] else issues in
  (* Compare line-break count *)
  let issues :=
    if bool_decide (Py.count Py.newline source ≠ Py.count Py.newline target)
    then issues ++ ["wrong_line_break_count"] else issues in
  (* Check final dot, except for Japanese *)
  let issues :=
    if bool_decide (lang_code ≠ "ja") then
      if Py.endswith "." source && negb (Py.endswith "." target)
      then issues ++ ["missing_end_dot"]
      else if negb (Py.endswith "." source) && Py.endswith "." target
      then issues ++ ["extra_end_dot"]
      else issues
    else issues in
  issues.

(** ** Data model of [compare_arb_files] *)

#[local] Set Warnings "-register-all".

(** A value of a parsed JSON document.  Only [VStr] passes
    [isinstance(v, str)]; a float is kept as mantissa and exponent and is
    never inspected. *)
Inductive value : Type :=
| VNone
| VBool (b : bool)
| VInt (n : Z)
| VFloat (m e : Z)
| VStr (s : string)
| VList (l : list value)
| VDict (d : list (string * value)).

(** A dict with string keys, in insertion order. *)
Definition dict : Type := list (string * value).

(** Python dicts have no repeated key. *)
Definition dict_wf (d : dict) : Prop := NoDup d.*1.

(** Exceptions and results. *)
Inductive exn : Type :=
| KeyError (k : string).

Inductive result (A : Type) : Type :=
| Ok (a : A)
| Raise (e : exn).
Arguments Ok {A} a.
Arguments Raise {A} e.

#[global] Instance result_ret : MRet result := λ A a, Ok a.
#[global] Instance result_bind : MBind result := λ A B f m,
  match m with
  | Ok a => f a
  | Raise e => Raise e
  end.

(** [d.keys()] *)
Definition dict_keys (d : dict) : list string := d.*1.

(** [d[k]] *)
Fixpoint dict_getitem (d : dict) (k : string) : result value :=
  match d with
  | [] => Raise (KeyError k)
  | (k', v) :: d' => if bool_decide (k' = k) then Ok v else dict_getitem d' k
  end.

(** [isinstance(v, str)] *)
Definition isinstance_str (v : value) : bool :=
  match v with
  | VStr _ => true
  | _ => false
  end.

(** One entry of [parameterIssues]. *)
Record IssueRecord : Type := mkIssue {
  key : string;
  reference : string;
  target : string;
  missingParams : list string;
  extraParams : list string;
  textIssues : list string
}.

(** The returned report. *)
Record Report : Type := mkReport {
  langCode : string;
  missingKeys : list string;
  extraKeys : list string;
  emptyTranslations : list string;
  identicalTranslations : list string;
  parameterIssues : list IssueRecord
}.

(** The three lists the loop of [compare_arb_files] appends to. *)
Record loop_state : Type := mkState {
  empty_translations : list string;
  identical_translations : list string;
  parameter_issues : list IssueRecord
}.

(** [x or d] where [x] is [None] or a string: the empty string is falsy. *)
Definition or_default (x : option string) (d : string) : string :=
  match x with
  | Some s => if bool_decide (s = "") then d else s
  | None => d
  end.

(** Body of [for key in ref_keys]. *)
Definition loop_body (reference_data target_data : dict)
    (tgt_keys : list string) (lang_code : string)
    (st : loop_state) (k : string) : result loop_state :=
  if bool_decide (k ∉ tgt_keys) then mret st
  else
    ref_val ← dict_getitem reference_data k;
    tgt_val ← dict_getitem target_data k;
    match ref_val, tgt_val with
    | VStr ref_val, VStr tgt_val =>
      let ref_val := Py.strip ref_val in
      let tgt_val := Py.strip tgt_val in
      (* Check empty *)
      let st :=
        if bool_decide (tgt_val = "")
        then mkState (empty_translations st ++ [k])
                     (identical_translations st) (parameter_issues st)
        else if bool_decide (ref_val = tgt_val)
        then mkState (empty_translations st)
                     (identical_translations st ++ [k]) (parameter_issues st)
        else st in
      (* Check parameters *)
      let ref_params := extract_params ref_val in
      let tgt_params := extract_params tgt_val in
      let missing_params := filter (λ p, p ∉ tgt_params) (elements ref_params) in
      let extra_params := filter (λ p, p ∉ ref_params) (elements tgt_params) in
      (* Check text/format issues *)
      let text_issues := check_text_issues ref_val tgt_val lang_code in
      if bool_decide (missing_params ≠ [] ∨ extra_params ≠ [] ∨ text_issues ≠ [])
      then mret (mkState (empty_translations st) (identical_translations st)
                   (parameter_issues st ++
                      [mkIssue k ref_val tgt_val missing_params extra_params
                         text_issues]))
      else mret st
    | _, _ => mret st
    end.

(** The [for] loop: the body runs on each key in turn, an exception ends it. *)
Fixpoint for_each (body : loop_state → string → result loop_state)
    (keys : list string) (st : loop_state) : result loop_state :=
  match keys with
  | [] => mret st
  | k :: keys' => st' ← body st k; for_each body keys' st'
  end.

Definition compare_arb_files (reference_data target_data : dict)
    (target_file_name : string) : result Report :=
  let ref_keys := filter (λ k, ¬ Py.startswith "@" k) (dict_keys reference_data) in
  let tgt_keys := filter (λ k, ¬ Py.startswith "@" k) (dict_keys target_data) in
  let missing_keys := filter (λ k, k ∉ tgt_keys) ref_keys in
  let extra_keys := filter (λ k, k ∉ ref_keys) tgt_keys in
  let lang_code := or_default (detect_language_code target_file_name) "unknown" in
  st ← for_each (loop_body reference_data target_data tgt_keys lang_code)
         ref_keys (mkState [] [] []);
  mret (mkReport lang_code missing_keys extra_keys
          (empty_translations st) (identical_translations st)
          (parameter_issues st)).

(** ** Specification predicates *)

(** [sub] occurs in [s]. *)
Definition substring_of (sub s : string) : Prop :=
  ∃ pre post, s = pre +:+ sub +:+ post.

(** The keys that take part in the comparison: those not starting with [@]. *)
Definition visible_keys (d : dict) : list string :=
  filter (λ k, ¬ Py.startswith "@" k) (dict_keys d).

(** [k] is a visible key of both mappings, both values are strings, and
    [r] and [t] are the trimmed reference and target values. *)
Definition trimmed_pair (reference_data target_data : dict)
    (k r t : string) : Prop :=
  k ∈ visible_keys reference_data ∧ k ∈ visible_keys target_data ∧
  ∃ r0 t0, dict_getitem reference_data k = Ok (VStr r0)
         ∧ dict_getitem target_data k = Ok (VStr t0)
         ∧ r = Py.strip r0 ∧ t = Py.strip t0.

(** An issue record is the analysis of the key it names. *)
Definition issue_justified (reference_data target_data : dict)
    (lang_code : string) (i : IssueRecord) : Prop :=
  trimmed_pair reference_data target_data (key i) (reference i) (target i)
  ∧ missingParams i =
      filter (λ p, p ∉ extract_params (target i))
        (elements (extract_params (reference i)))
  ∧ extraParams i =
      filter (λ p, p ∉ extract_params (reference i))
        (elements (extract_params (target i)))
  ∧ textIssues i = check_text_issues (reference i) (target i) lang_code
  ∧ (missingParams i ≠ [] ∨ extraParams i ≠ [] ∨ textIssues i ≠ []).

(** Every entry of the three lists has its reason. *)
Record justified (reference_data target_data : dict) (lang_code : string)
    (st : loop_state) : Prop := mkJustified {
  just_empty : ∀ k, k ∈ empty_translations st →
    ∃ r, trimmed_pair reference_data target_data k r "";
  just_identical : ∀ k, k ∈ identical_translations st →
    ∃ t, trimmed_pair reference_data target_data k t t ∧ t ≠ "";
  just_issue : ∀ i, i ∈ parameter_issues st →
    issue_justified reference_data target_data lang_code i
}.

(** * Properties *)

Local Open Scope nat_scope.

(** ** String primitives against their specifications *)

Lemma startswith_spec p s :
  Py.startswith p s ↔ ∃ post, s = p +:+ post.
Proof.
  revert s. induction p as [|a p IH]; intros s; simpl.
  - split; [intros _; by exists s | done].
  - destruct s as [|b s]; simpl.
    + split; [done | by intros [post ?]].
    + rewrite andb_True, bool_decide_spec, IH. split.
      * intros [-> [post ->]]. by exists post.
      * intros [post Hs]. injection Hs as -> ->. eauto.
Qed.

Lemma contains_spec sub s :
  Py.contains sub s ↔ substring_of sub s.
Proof.
  unfold substring_of. induction s as [|c s IH]; simpl.
  - rewrite orb_True, startswith_spec. split.
    + intros [[post H]|[]]. by exists "", post.
    + intros ([|? ?] & post & H); [left; by exists post | done].
  - rewrite orb_True, startswith_spec, IH. split.
    + intros [[post H]|(pre & post & H)].
      * by exists "", post.
      * exists (String c pre), post. by rewrite H.
    + intros ([|a pre] & post & H).
      * left. by exists post.
      * right. injection H as -> ->. by exists pre, post.
Qed.

Lemma endswith_spec p s :
  Py.endswith p s ↔ ∃ pre, s = pre +:+ p.
Proof.
  induction s as [|c s IH]; simpl.
  - rewrite orb_True, bool_decide_spec. split.
    + intros [<-|[]]. by exists "".
    + intros ([|? ?] & H); [by left | done].
  - rewrite orb_True, bool_decide_spec, IH. split.
    + intros [<-|[pre ->]]; [by exists "" | by exists (String c pre)].
    + intros ([|a pre] & H); [by left |].
      right. injection H as -> ->. by exists pre.
Qed.

(** ** Trimmed strings have no white space at either end *)

Lemma lstrip_startswith c s :
  Py.startswith (String c "") (Py.lstrip s) → Py.isspace c = false.
Proof.
  induction s as [|a s IH]; simpl; [done|].
  destruct (Py.isspace a) eqn:Ha; [done|]. simpl.
  rewrite andb_True, bool_decide_spec. by intros [<- _].
Qed.

Lemma rstrip_startswith c s :
  Py.startswith (String c "") (Py.rstrip s) → Py.startswith (String c "") s.
Proof.
  destruct s as [|a s]; simpl; [done|].
  destruct (Py.rstrip s); [destruct (Py.isspace a)|]; simpl; try done.
  all: rewrite !andb_True; tauto.
Qed.

Lemma rstrip_endswith c s :
  Py.endswith (String c "") (Py.rstrip s) → Py.isspace c = false.
Proof.
  induction s as [|a s IH]; simpl; [done|].
  destruct (Py.rstrip s) as [|b r] eqn:Hr.
  - destruct (Py.isspace a) eqn:Ha; [done|].
    unfold Py.endswith. rewrite !orb_True, !bool_decide_spec.
    intros [[= <-]|[|[]]]; done.
  - change (Py.endswith (String c "") (String a (String b r)))
      with (bool_decide (String a (String b r) = String c "")
            || Py.endswith (String c "") (String b r)).
    rewrite orb_True, bool_decide_spec. intros [|]; [done | auto].
Qed.

Lemma strip_startswith c s :
  Py.isspace c = true → Py.startswith (String c "") (Py.strip s) = false.
Proof.
  intros Hc. apply not_true_is_false. intros H%Is_true_true.
  apply rstrip_startswith, lstrip_startswith in H. congruence.
Qed.

Lemma strip_endswith c s :
  Py.isspace c = true → Py.endswith (String c "") (Py.strip s) = false.
Proof.
  intros Hc. apply not_true_is_false. intros H%Is_true_true.
  apply rstrip_endswith in H. congruence.
Qed.

(** ** The issue codes of [check_text_issues] *)

Lemma elem_of_append_if (b : bool) (l : list string) (x c : string) :
  c ∈ (if b then l ++ [x] else l) ↔ c ∈ l ∨ (b ∧ c = x).
Proof.
  destruct b; simpl.
  - rewrite elem_of_app, list_elem_of_singleton. tauto.
  - tauto.
Qed.

(** Each code is in the result exactly when its condition holds. *)
Lemma elem_of_check_text_issues source target lang_code c :
  c ∈ check_text_issues source target lang_code ↔
    (c = "missing_start_space"
       ∧ Py.startswith " " source ∧ ¬ Py.startswith " " target)
  ∨ (c = "missing_end_space"
       ∧ Py.endswith " " source ∧ ¬ Py.endswith " " target)
  ∨ (c = "missing_start_line_break"
       ∧ Py.startswith (String Py.newline "") source
       ∧ ¬ Py.startswith (String Py.newline "") target)
  ∨ (c = "missing_end_line_break"
       ∧ Py.endswith (String Py.newline "") source
       ∧ ¬ Py.endswith (String Py.newline "") target)
  ∨ (c = "wrong_line_break_count"
       ∧ Py.count Py.newline source ≠ Py.count Py.newline target)
  ∨ (c = "missing_end_dot"
       ∧ lang_code ≠ "ja"
       ∧ Py.endswith "." source ∧ ¬ Py.endswith "." target)
  ∨ (c = "extra_end_dot"
       ∧ lang_code ≠ "ja"
       ∧ ¬ Py.endswith "." source ∧ Py.endswith "." target).
Proof.
  unfold check_text_issues. cbv zeta.
  case_bool_decide as Hja;
    [destruct (Py.endswith "." source), (Py.endswith "." target);
     cbn [andb negb]|].
  all: rewrite ?elem_of_app, ?list_elem_of_singleton, !elem_of_append_if.
  all: rewrite ?andb_True, ?negb_True, ?bool_decide_spec.
  all: pose proof (elem_of_nil c); unfold Is_true in *; tauto.
Qed.

(** ** The comparison loop *)

Lemma dict_getitem_Ok (d : dict) k :
  k ∈ dict_keys d → ∃ v, dict_getitem d k = Ok v.
Proof.
  induction d as [|[k' v] d IH]; simpl; intros Hk.
  - by apply elem_of_nil in Hk.
  - case_bool_decide as Hkk; [by eexists|].
    apply elem_of_cons in Hk as [->|Hk]; [done | auto].
Qed.

(** On a dict without repeated keys, [d[k]] is the value stored under [k]. *)
Lemma dict_getitem_wf (d : dict) k v :
  dict_wf d → (k, v) ∈ d → dict_getitem d k = Ok v.
Proof.
  unfold dict_wf. induction d as [|[k' v'] d IH]; simpl; intros Hwf Hin.
  - by apply elem_of_nil in Hin.
  - apply NoDup_cons in Hwf as [Hk' Hwf].
    apply elem_of_cons in Hin as [[= -> ->]|Hin].
    + by rewrite bool_decide_eq_true_2.
    + rewrite bool_decide_eq_false_2; [by apply IH|].
      intros ->. apply Hk'. apply list_elem_of_fmap. by exists (k, v).
Qed.

Lemma visible_keys_dict_keys d k : k ∈ visible_keys d → k ∈ dict_keys d.
Proof. unfold visible_keys. rewrite list_elem_of_filter. tauto. Qed.

Lemma visible_keys_not_at d k : k ∈ visible_keys d → ¬ Py.startswith "@" k.
Proof. unfold visible_keys. rewrite list_elem_of_filter. tauto. Qed.

Lemma trimmed_pair_fun R T k r t r' t' :
  trimmed_pair R T k r t → trimmed_pair R T k r' t' → r = r' ∧ t = t'.
Proof.
  intros (_ & _ & r0 & t0 & Hr & Ht & -> & ->).
  intros (_ & _ & r1 & t1 & Hr' & Ht' & -> & ->).
  split; congruence.
Qed.

(** An invariant that every run of the body keeps holds after the loop,
    and the loop ends without an exception when the body does. *)
Lemma for_each_invariant (I : loop_state → Prop) body keys st :
  I st →
  (∀ st k, k ∈ keys → I st → ∃ st', body st k = Ok st' ∧ I st') →
  ∃ st', for_each body keys st = Ok st' ∧ I st'.
Proof.
  revert st. induction keys as [|k keys IH]; intros st Hst Hbody; simpl.
  - by exists st.
  - destruct (Hbody st k) as (st1 & Hk & Hst1); [by left | done |].
    rewrite Hk. simpl. apply IH; [done|].
    intros st2 k2 Hk2. apply Hbody. by right.
Qed.

Section loop.
Context (reference_data target_data : dict) (lang_code : string).

Local Abbreviation justified_here := (justified reference_data target_data lang_code).

Lemma justified_add_empty st k r :
  justified_here st →
  trimmed_pair reference_data target_data k r "" →
  justified_here (mkState (empty_translations st ++ [k])
                    (identical_translations st) (parameter_issues st)).
Proof.
  intros [He Hi Hp] Hk. split; simpl; [|done..].
  intros k'. rewrite elem_of_app, list_elem_of_singleton.
  intros [?| ->]; eauto.
Qed.

Lemma justified_add_identical st k t :
  justified_here st →
  trimmed_pair reference_data target_data k t t → t ≠ "" →
  justified_here (mkState (empty_translations st)
                    (identical_translations st ++ [k]) (parameter_issues st)).
Proof.
  intros [He Hi Hp] Hk Ht. split; simpl; [done| |done].
  intros k'. rewrite elem_of_app, list_elem_of_singleton.
  intros [?| ->]; eauto.
Qed.

Lemma justified_add_issue st i :
  justified_here st →
  issue_justified reference_data target_data lang_code i →
  justified_here (mkState (empty_translations st)
                    (identical_translations st) (parameter_issues st ++ [i])).
Proof.
  intros [He Hi Hp] Hk. split; simpl; [done..|].
  intros i'. rewrite elem_of_app, list_elem_of_singleton.
  intros [?| ->]; eauto.
Qed.

(** One run of the loop body on a visible reference key ends normally and
    keeps every entry justified. *)
Lemma loop_body_justified st k :
  k ∈ visible_keys reference_data →
  justified_here st →
  ∃ st', loop_body reference_data target_data (visible_keys target_data)
           lang_code st k = Ok st'
         ∧ justified_here st'.
Proof.
  intros Hk Hst. unfold loop_body.
  case_bool_decide as Hin; [by exists st|].
  destruct (dict_getitem_Ok reference_data k) as [v1 Hv1];
    [by apply visible_keys_dict_keys|].
  destruct (dict_getitem_Ok target_data k) as [v2 Hv2];
    [by apply visible_keys_dict_keys|].
  rewrite Hv1, Hv2. unfold mbind, result_bind, mret, result_ret.
  destruct v1 as [| | | |r0| |]; try (by exists st).
  destruct v2 as [| | | |t0| |]; try (by exists st).
  cbv zeta.
  assert (trimmed_pair reference_data target_data k
            (Py.strip r0) (Py.strip t0)) as Hpair.
  { split_and!; [done..|]. by exists r0, t0. }
  set (r := Py.strip r0) in *. set (t := Py.strip t0) in *.
  match goal with
  | |- context [empty_translations (if ?c then ?a else ?b)] =>
    set (st1 := if c then a else b)
  end.
  assert (justified_here st1) as Hst1.
  { subst st1. case_bool_decide as Hempty.
    - apply justified_add_empty with r; [done|]. by rewrite <- Hempty.
    - case_bool_decide as Hsame; [|done].
      apply justified_add_identical with t; [done| |done].
      by rewrite <- Hsame at 1. }
  clearbody st1.
  case_bool_decide as Hany; [|by exists st1].
  eexists; split; [done|].
  apply justified_add_issue; [done|].
  by split_and!.
Qed.

End loop.

(** The report of [compare_arb_files]: the call always returns, the key
    lists are the two filters, and every entry is justified. *)
Lemma compare_arb_files_report reference_data target_data target_file_name :
  ∃ rep,
    compare_arb_files reference_data target_data target_file_name = Ok rep
    ∧ langCode rep
      = or_default (detect_language_code target_file_name) "unknown"
    ∧ missingKeys rep
      = filter (λ k, k ∉ visible_keys target_data)
          (visible_keys reference_data)
    ∧ extraKeys rep
      = filter (λ k, k ∉ visible_keys reference_data)
          (visible_keys target_data)
    ∧ justified reference_data target_data (langCode rep)
        (mkState (emptyTranslations rep) (identicalTranslations rep)
           (parameterIssues rep)).
Proof.
  unfold compare_arb_files. cbv zeta.
  fold (visible_keys reference_data). fold (visible_keys target_data).
  set (lang_code := or_default _ _).
  destruct (for_each_invariant
              (justified reference_data target_data lang_code)
              (loop_body reference_data target_data
                 (visible_keys target_data) lang_code)
              (visible_keys reference_data) (mkState [] [] []))
    as (st & Hrun & Hst).
  - split; simpl; intros ? H; by apply elem_of_nil in H.
  - intros st k Hk Hst. by apply loop_body_justified.
  - rewrite Hrun. eexists; split; [done|]. simpl.
    split_and!; [done..|]. by destruct st.
Qed.

(** ** Language detection *)

Lemma detect_loop_Some items lower_name code :
  detect_loop items lower_name = Some code ↔
  ∃ i lang, items !! i = Some (lang, code)
    ∧ Py.contains lang lower_name
    ∧ ∀ j l c, j < i → items !! j = Some (l, c) → ¬ Py.contains l lower_name.
Proof.
  induction items as [|[lang0 code0] items IH]; simpl.
  - split; [done | by intros (i & lang & ? & _)].
  - destruct (Py.contains lang0 lower_name) eqn:H0.
    + split.
      * intros [= <-]. exists 0, lang0.
        split_and!; [done | by apply Is_true_true_2 | lia].
      * intros ([|i] & lang & Hi & Hin & Hfirst); [by simplify_eq/=|].
        exfalso. apply (Hfirst 0 lang0 code0); [lia | done |].
        by apply Is_true_true_2.
    + rewrite IH. apply Is_true_false_2 in H0. split.
      * intros (i & lang & Hi & Hin & Hfirst).
        exists (S i), lang. split_and!; [done..|].
        intros [|j] l c Hj Hl; [by simplify_eq/=|].
        apply (Hfirst j l c); [lia | done].
      * intros ([|i] & lang & Hi & Hin & Hfirst); [by simplify_eq/=|].
        exists i, lang. split_and!; [done..|].
        intros j l c Hj Hl. apply (Hfirst (S j) l c); [lia | done].
Qed.

Lemma detect_loop_None items lower_name :
  detect_loop items lower_name = None ↔
  ∀ lang code, (lang, code) ∈ items → ¬ Py.contains lang lower_name.
Proof.
  induction items as [|[lang0 code0] items IH]; simpl.
  - split; [|done]. intros _ lang code H. by apply elem_of_nil in H.
  - destruct (Py.contains lang0 lower_name) eqn:H0.
    + split; [done|]. intros H. exfalso.
      apply (H lang0 code0); [by left | by apply Is_true_true_2].
    + rewrite IH. apply Is_true_false_2 in H0. split.
      * intros H lang code [?|Hin]%elem_of_cons; [by simplify_eq | eauto].
      * intros H lang code Hin. apply (H lang code). by right.
Qed.

(** C4. [detect_language_code] lower-cases the file name and returns the
    code of the first language name, in the order dutch, german, italian,
    japanese, korean, polish, portuguese, russian, spanish, turkish, french,
    fr, english, that occurs in it as a substring; it returns [None] exactly
    when no name occurs; and "french_file.arb" gives "fr". *)
Theorem detect_language_code_first_match (file_name : string) :
  language_map.*1
    = ["dutch"; "german"; "italian"; "japanese"; "korean"; "polish";
       "portuguese"; "russian"; "spanish"; "turkish"; "french"; "fr";
       "english"]
  ∧ (∀ code,
       detect_language_code file_name = Some code ↔
       ∃ i lang, language_map !! i = Some (lang, code)
         ∧ substring_of lang (Py.lower file_name)
         ∧ ∀ j l c, j < i → language_map !! j = Some (l, c) →
             ¬ substring_of l (Py.lower file_name))
  ∧ (detect_language_code file_name = None ↔
       ∀ lang code, (lang, code) ∈ language_map →
         ¬ substring_of lang (Py.lower file_name))
  ∧ detect_language_code "french_file.arb" = Some "fr".
Proof.
  split_and!; [done| | |done].
  - intros code. unfold detect_language_code. cbv zeta.
    rewrite detect_loop_Some.
    split; intros (i & lang & Hi & Hin & Hfirst); exists i, lang.
    + split_and!; [done | by apply contains_spec |].
      intros j l c Hj Hl. rewrite <- contains_spec. eauto.
    + split_and!; [done | by apply contains_spec |].
      intros j l c Hj Hl. rewrite contains_spec. eauto.
  - unfold detect_language_code. cbv zeta. rewrite detect_loop_None.
    split; intros H lang code Hin.
    + rewrite <- contains_spec. eauto.
    + rewrite contains_spec. eauto.
Qed.

(** ** Text issues *)

Lemma end_dot_not_both source target lang_code :
  ¬ ("missing_end_dot" ∈ check_text_issues source target lang_code
     ∧ "extra_end_dot" ∈ check_text_issues source target lang_code).
Proof.
  rewrite !elem_of_check_text_issues. intros [Hm He].
  destruct Hm as [[[=] _]|[[[=] _]|[[[=] _]|[[[=] _]|[[[=] _]|[Hm|[[=] _]]]]]]].
  destruct He as [[[=] _]|[[[=] _]|[[[=] _]|[[[=] _]|[[[=] _]|[[[=] _]|He]]]]]].
  tauto.
Qed.

Lemma end_dot_not_ja source target c :
  c ∈ ["missing_end_dot"; "extra_end_dot"] →
  c ∉ check_text_issues source target "ja".
Proof.
  rewrite elem_of_check_text_issues, !elem_of_cons, elem_of_nil.
  intros [->|[->|[]]].
  - intros [[[=] _]|[[[=] _]|[[[=] _]|[[[=] _]|[[[=] _]|[H|[[=] _]]]]]]].
    tauto.
  - intros [[[=] _]|[[[=] _]|[[[=] _]|[[[=] _]|[[[=] _]|[[[=] _]|H]]]]]].
    tauto.
Qed.

(** C5. The result of [check_text_issues] never holds both
    "missing_end_dot" and "extra_end_dot", and holds neither of them when
    the language code is "ja". *)
Theorem end_dot_codes_exclusive (source target lang_code : string) :
  ¬ ("missing_end_dot" ∈ check_text_issues source target lang_code
     ∧ "extra_end_dot" ∈ check_text_issues source target lang_code)
  ∧ ("missing_end_dot" ∉ check_text_issues source target "ja")
  ∧ ("extra_end_dot" ∉ check_text_issues source target "ja").
Proof.
  split_and!.
  - apply end_dot_not_both.
  - apply end_dot_not_ja. by left.
  - apply end_dot_not_ja. right. by left.
Qed.

Lemma check_text_issues_same s lang_code : check_text_issues s s lang_code = [].
Proof.
  apply elem_of_nil_inv. intros c. rewrite elem_of_check_text_issues. tauto.
Qed.

(** On trimmed strings the four space and line-break checks never fire. *)
Lemma check_text_issues_strip r0 t0 lang_code c :
  c ∈ check_text_issues (Py.strip r0) (Py.strip t0) lang_code →
  c ∈ ["wrong_line_break_count"; "missing_end_dot"; "extra_end_dot"].
Proof.
  rewrite elem_of_check_text_issues.
  rewrite (strip_startswith " " r0), (strip_endswith " " r0) by done.
  rewrite (strip_startswith Py.newline r0), (strip_endswith Py.newline r0)
    by done.
  rewrite !elem_of_cons. unfold Is_true. tauto.
Qed.

(** ** The report *)

(** The scenarios of the specification that name no language code. *)
Example scenario_A :
  compare_arb_files
    [("a", VStr "Hello {name}."); ("b", VStr "Bye")]
    [("a", VStr "Hola {name}"); ("c", VStr "Adios")] "app.arb"
  = Ok (mkReport "unknown" ["b"] ["c"] [] []
          [mkIssue "a" "Hello {name}." "Hola {name}" [] []
             ["missing_end_dot"]]).
Proof. by vm_compute. Qed.

Example scenario_C :
  compare_arb_files [("greet", VStr "Hi {user}")] [("greet", VStr "Hi {user}")]
    "app.arb"
  = Ok (mkReport "unknown" [] [] [] ["greet"] []).
Proof. by vm_compute. Qed.

Example findall_nested :
  findall "{a{b}}{c}{}{d e}{f_1}x}" = ["b"; "c"; "f_1"].
Proof. reflexivity. Qed.

(** C1 as the spec states it fails: for Scenario B the language code of the
    report is not "es". *)
Lemma scenario_B_langCode_not_es :
  ¬ ∃ rep,
      compare_arb_files [("x", VStr "")] [("x", VStr "")] "es.arb" = Ok rep
      ∧ emptyTranslations rep = ["x"]
      ∧ langCode rep = "es".
Proof.
  intros (rep & Hrep & _ & Hlang). vm_compute in Hrep.
  injection Hrep as <-. discriminate Hlang.
Qed.

(** C1, amended.  For reference {"x": ""} and target {"x": ""} with target
    file name "es.arb", the report has emptyTranslations = ["x"] and
    langCode = "unknown": no language name of the table occurs in "es.arb",
    so detection returns [None]. *)
Theorem scenario_B :
  detect_language_code "es.arb" = None
  ∧ ∃ rep,
      compare_arb_files [("x", VStr "")] [("x", VStr "")] "es.arb" = Ok rep
      ∧ emptyTranslations rep = ["x"]
      ∧ langCode rep = "unknown".
Proof.
  split; [done|]. eexists. split; [by vm_compute|]. done.
Qed.

(** C2 as the spec states it fails: with target file name "ja.arb" the
    language code is "unknown", and the record of the key holds
    "missing_end_dot". *)
Lemma japanese_exemption_fails_for_ja_arb :
  ¬ ∀ rep,
      compare_arb_files [("k", VStr "Done.")] [("k", VStr "Done")] "ja.arb"
        = Ok rep →
      ∀ i, i ∈ parameterIssues rep → key i = "k" →
        "missing_end_dot" ∉ textIssues i.
Proof.
  intros H.
  apply (H _ eq_refl
           (mkIssue "k" "Done." "Done" [] [] ["missing_end_dot"]));
    [by left | done | by left].
Qed.

(** C2, amended.  When [detect_language_code] finds "ja" in the target file
    name (as for "japanese.arb"), a key whose reference value is "Done." and
    whose target value is "Done" has no "missing_end_dot" among the text
    issues of a record of the report. *)
Theorem japanese_exemption reference_data target_data target_file_name k :
  detect_language_code target_file_name = Some "ja" →
  dict_getitem reference_data k = Ok (VStr "Done.") →
  dict_getitem target_data k = Ok (VStr "Done") →
  ∃ rep,
    compare_arb_files reference_data target_data target_file_name = Ok rep
    ∧ langCode rep = "ja"
    ∧ ∀ i, i ∈ parameterIssues rep → key i = k →
        "missing_end_dot" ∉ textIssues i.
Proof.
  intros Hja _ _.
  destruct (compare_arb_files_report reference_data target_data
              target_file_name) as (rep & Hrep & Hlang & _ & _ & [_ _ Hi]).
  rewrite Hja in Hlang. simpl in Hlang, Hi.
  exists rep. split_and!; [done..|].
  intros i Hin _. destruct (Hi i Hin) as (_ & _ & _ & -> & _).
  rewrite Hlang. apply end_dot_not_ja. by left.
Qed.

Lemma japanese_exemption_witness :
  detect_language_code "japanese.arb" = Some "ja"
  ∧ dict_getitem [("k", VStr "Done.")] "k" = Ok (VStr "Done.")
  ∧ dict_getitem [("k", VStr "Done")] "k" = Ok (VStr "Done")
  ∧ ∃ rep,
      compare_arb_files [("k", VStr "Done.")] [("k", VStr "Done")]
        "japanese.arb" = Ok rep
      ∧ langCode rep = "ja"
      ∧ ∀ i, i ∈ parameterIssues rep → key i = "k" →
          "missing_end_dot" ∉ textIssues i.
Proof.
  split; [reflexivity|]. split; [reflexivity|]. split; [reflexivity|].
  apply (japanese_exemption [("k", VStr "Done.")] [("k", VStr "Done")]
           "japanese.arb" "k"); reflexivity.
Defined.

(** C3. No issue record of the report lists "missing_start_space",
    "missing_end_space", "missing_start_line_break" or
    "missing_end_line_break": the text issues are computed on the trimmed
    values. *)
Theorem no_space_or_line_break_issue
    (reference_data target_data : dict) (target_file_name : string) :
  ∃ rep,
    compare_arb_files reference_data target_data target_file_name = Ok rep
    ∧ ∀ i, i ∈ parameterIssues rep →
        (∃ r0 t0, textIssues i
                  = check_text_issues (Py.strip r0) (Py.strip t0) (langCode rep))
        ∧ ("missing_start_space" ∉ textIssues i)
        ∧ ("missing_end_space" ∉ textIssues i)
        ∧ ("missing_start_line_break" ∉ textIssues i)
        ∧ ("missing_end_line_break" ∉ textIssues i).
Proof.
  destruct (compare_arb_files_report reference_data target_data
              target_file_name) as (rep & Hrep & _ & _ & _ & [_ _ Hi]).
  exists rep. split; [done|]. intros i Hin.
  destruct (Hi i Hin) as ((_ & _ & r0 & t0 & _ & _ & -> & ->) & _ & _ & -> & _).
  split; [by exists r0, t0|].
  split_and!; intros H%check_text_issues_strip;
    repeat (apply elem_of_cons in H as [[=]|H]); by apply elem_of_nil in H.
Qed.

(** C6. No key is in both emptyTranslations and identicalTranslations: a key
    of the first has an empty trimmed target, a key of the second a
    non-empty one. *)
Theorem empty_identical_disjoint
    (reference_data target_data : dict) (target_file_name : string) :
  ∃ rep,
    compare_arb_files reference_data target_data target_file_name = Ok rep
    ∧ (∀ k, k ∈ emptyTranslations rep →
         ∃ r, trimmed_pair reference_data target_data k r "")
    ∧ (∀ k, k ∈ identicalTranslations rep →
         ∃ t, trimmed_pair reference_data target_data k t t ∧ t ≠ "")
    ∧ ∀ k, ¬ (k ∈ emptyTranslations rep ∧ k ∈ identicalTranslations rep).
Proof.
  destruct (compare_arb_files_report reference_data target_data
              target_file_name) as (rep & Hrep & _ & _ & _ & [He Hi _]).
  simpl in He, Hi. exists rep. split_and!; [done..|].
  intros k [[r Hr]%He [t [Ht Hne]]%Hi].
  destruct (trimmed_pair_fun _ _ _ _ _ _ _ Hr Ht) as [_ Heq]. congruence.
Qed.

(** C7. No key is in both missingKeys and extraKeys. *)
Theorem missing_extra_disjoint
    (reference_data target_data : dict) (target_file_name : string) :
  ∃ rep,
    compare_arb_files reference_data target_data target_file_name = Ok rep
    ∧ ∀ k, ¬ (k ∈ missingKeys rep ∧ k ∈ extraKeys rep).
Proof.
  destruct (compare_arb_files_report reference_data target_data
              target_file_name) as (rep & Hrep & _ & Hm & Hx & _).
  exists rep. split; [done|]. intros k. rewrite Hm, Hx.
  rewrite !list_elem_of_filter. tauto.
Qed.

Lemma trimmed_pair_isinstance R T k r t v1 v2 :
  trimmed_pair R T k r t →
  dict_getitem R k = Ok v1 → dict_getitem T k = Ok v2 →
  isinstance_str v1 = true ∧ isinstance_str v2 = true.
Proof.
  intros (_ & _ & r0 & t0 & Hr & Ht & _) Hv1 Hv2.
  rewrite Hr in Hv1. rewrite Ht in Hv2. by simplify_eq.
Qed.

(** C8. A key of both mappings, not starting with [@], whose value in
    either mapping is not a string: the comparison returns, and the key is in
    none of emptyTranslations, identicalTranslations and parameterIssues. *)
Theorem non_string_values_skipped
    (reference_data target_data : dict) (target_file_name k : string)
    (v1 v2 : value) :
  k ∈ visible_keys reference_data →
  k ∈ visible_keys target_data →
  dict_getitem reference_data k = Ok v1 →
  dict_getitem target_data k = Ok v2 →
  isinstance_str v1 = false ∨ isinstance_str v2 = false →
  ∃ rep,
    compare_arb_files reference_data target_data target_file_name = Ok rep
    ∧ (k ∉ emptyTranslations rep)
    ∧ (k ∉ identicalTranslations rep)
    ∧ ∀ i, i ∈ parameterIssues rep → key i ≠ k.
Proof.
  intros _ _ Hv1 Hv2 Hstr.
  destruct (compare_arb_files_report reference_data target_data
              target_file_name) as (rep & Hrep & _ & _ & _ & [He Hi Hp]).
  simpl in He, Hi, Hp. exists rep. split_and!; [done|..].
  - intros [r Hr]%He.
    destruct (trimmed_pair_isinstance _ _ _ _ _ _ _ Hr Hv1 Hv2).
    destruct Hstr; congruence.
  - intros [t [Ht _]]%Hi.
    destruct (trimmed_pair_isinstance _ _ _ _ _ _ _ Ht Hv1 Hv2).
    destruct Hstr; congruence.
  - intros i [Hpair _]%Hp Hkey. rewrite Hkey in Hpair.
    destruct (trimmed_pair_isinstance _ _ _ _ _ _ _ Hpair Hv1 Hv2).
    destruct Hstr; congruence.
Qed.

Lemma non_string_values_skipped_witness :
  "n" ∈ visible_keys [("n", VInt 123)]
  ∧ dict_getitem [("n", VInt 123)] "n" = Ok (VInt 123)
  ∧ (isinstance_str (VInt 123) = false ∨ isinstance_str (VInt 123) = false)
  ∧ ∃ rep,
      compare_arb_files [("n", VInt 123)] [("n", VInt 123)] "n.arb" = Ok rep
      ∧ ("n" ∉ emptyTranslations rep)
      ∧ ("n" ∉ identicalTranslations rep)
      ∧ ∀ i, i ∈ parameterIssues rep → key i ≠ "n".
Proof.
  assert ("n" ∈ visible_keys [("n", VInt 123)]) as Hn
    by (vm_compute; constructor).
  split; [exact Hn|]. split; [reflexivity|].
  split; [left; reflexivity|].
  apply (non_string_values_skipped [("n", VInt 123)] [("n", VInt 123)]
           "n.arb" "n" (VInt 123) (VInt 123) Hn Hn eq_refl eq_refl).
  left; reflexivity.
Defined.

(** C9. No key starting with [@] is anywhere in the report: not in
    missingKeys, extraKeys, emptyTranslations or identicalTranslations, and
    not as the key of a record of parameterIssues. *)
Theorem metadata_keys_excluded
    (reference_data target_data : dict) (target_file_name : string) :
  ∃ rep,
    compare_arb_files reference_data target_data target_file_name = Ok rep
    ∧ ∀ k, Py.startswith "@" k →
        (k ∉ missingKeys rep)
        ∧ (k ∉ extraKeys rep)
        ∧ (k ∉ emptyTranslations rep)
        ∧ (k ∉ identicalTranslations rep)
        ∧ ∀ i, i ∈ parameterIssues rep → key i ≠ k.
Proof.
  destruct (compare_arb_files_report reference_data target_data
              target_file_name) as (rep & Hrep & _ & Hm & Hx & [He Hi Hp]).
  simpl in He, Hi, Hp. exists rep. split; [done|]. intros k Hat.
  rewrite Hm, Hx. split_and!.
  - intros [_ Hk%visible_keys_not_at]%list_elem_of_filter. done.
  - intros [_ Hk%visible_keys_not_at]%list_elem_of_filter. done.
  - intros [r [Hk%visible_keys_not_at _]]%He. done.
  - intros [t [[Hk%visible_keys_not_at _] _]]%Hi. done.
  - intros i [[Hk%visible_keys_not_at _] _]%Hp <-. done.
Qed.

Lemma filter_not_in_self (X : gset string) :
  filter (λ p, p ∉ X) (elements X) = [].
Proof.
  apply elem_of_nil_inv. intros p.
  rewrite list_elem_of_filter, elem_of_elements. tauto.
Qed.

(** C10. [check_text_issues] of a string against itself is empty, for every
    language code; and a key of identicalTranslations is the key of no
    record of parameterIssues. *)
Theorem identical_text_no_issue :
  (∀ s lang_code, check_text_issues s s lang_code = [])
  ∧ ∀ reference_data target_data target_file_name,
      ∃ rep,
        compare_arb_files reference_data target_data target_file_name = Ok rep
        ∧ ∀ k, k ∈ identicalTranslations rep →
            ∀ i, i ∈ parameterIssues rep → key i ≠ k.
Proof.
  split; [apply check_text_issues_same|].
  intros reference_data target_data target_file_name.
  destruct (compare_arb_files_report reference_data target_data
              target_file_name) as (rep & Hrep & _ & _ & _ & [_ Hi Hp]).
  simpl in Hi, Hp. exists rep. split; [done|].
  intros k [t [Ht _]]%Hi i (Hpair & Hmiss & Hextra & Htext & Hany)%Hp Hkey.
  rewrite Hkey in Hpair.
  destruct (trimmed_pair_fun _ _ _ _ _ _ _ Hpair Ht) as [Hr Htgt].
  rewrite Hr, Htgt in *.
  rewrite filter_not_in_self in Hmiss, Hextra.
  rewrite check_text_issues_same in Htext.
  destruct Hany as [?|[?|?]]; congruence.
Qed.
